(** * TCNForecaster: the forecaster facade over the TCNPytorch model

    A shallow embedding of
    [pyzoo/zoo/chronos/model/forecast/tcn_forecaster.py].

    The facade owns one trainable model object ([self.internal]) and two
    dictionaries ([self.data_config], [self.config]).  Every public method
    either fails locally (an [assert] of [_check_data], the [RuntimeError]
    of the built gate) or hands the call over to the model object.  The
    model class itself ([zoo.chronos.model.tcn.TCNPytorch]) is not part of
    this file: it is an interface here, and each method of the facade
    records the calls it makes on it. *)

From Stdlib Require Import Ascii PrimFloat.
From stdpp Require Import gmap strings list fin_maps pretty.

Local Open Scope string_scope.
Local Open Scope list_scope.
Local Open Scope Z_scope.

(** ** Python values *)

(** A numpy array, as far as the facade can tell: its [shape] tuple and a
    buffer it never reads. *)
Record ndarray := mk_ndarray {
  shape : list Z;
  buffer : list float
}.

(** The Python objects that travel through the facade untouched:
    hyper-parameters, metric names, paths, and what the model returns. *)
#[warnings="-register-all"]
Inductive pyval :=
| PyNone
| PyBool (b : bool)
| PyInt (n : Z)
| PyFloat (f : float)
| PyStr (s : string)
| PyList (l : list pyval)
| PyArray (a : ndarray).

(** The exceptions that can leave a method of the facade.  All but the
    last come from the facade's own statements; [ModelError] stands for
    whatever the model object raises, which the facade lets through. *)
Inductive exn :=
| AssertionError (msg : string)
| RuntimeError (msg : string)
| IndexError (msg : string)
| KeyError (key : string)
| TypeError (msg : string)
| ModelError (what : string).

Inductive result (A : Type) :=
| Returned (a : A)
| Raised (e : exn).
Arguments Returned {A} a.
Arguments Raised {A} e.

(** ** Calls on the model object *)

(** One constructor per method of [TCNPytorch] that the facade calls, with
    the arguments as the call site passes them. *)
Inductive call :=
| Call_fit_eval (data validation_data : ndarray * ndarray)
                (epochs metric : pyval) (kwargs : gmap string pyval)
| Call_predict (x : ndarray)
| Call_predict_with_onnx (x : ndarray) (dirname : pyval)
| Call_evaluate (x y : ndarray) (metrics multioutput : pyval)
| Call_evaluate_with_onnx (x y : ndarray) (metrics dirname multioutput : pyval)
| Call_save (checkpoint_file : pyval)
| Call_restore (checkpoint_file : pyval).

(** The interface of the model class: its constructor (with the value of
    [check_optional_config]), the readable [model_built] attribute, and
    the effect of a call on the model object. *)
Class TCNPytorch (M : Type) := {
  new_model : bool → result M;
  model_built : M → bool;
  invoke : call → M → result pyval * M
}.

(** ** The facade object *)

Record TCNForecaster (M : Type) := mk_TCNForecaster {
  internal : M;
  data_config : gmap string Z;
  config : gmap string pyval
}.
Arguments mk_TCNForecaster {M} _ _ _.
Arguments internal {M} _.
Arguments data_config {M} _.
Arguments config {M} _.

(** The arguments of [__init__] and the defaults of its signature. *)
Record init_args := mk_init_args {
  past_seq_len : Z;
  future_seq_len : Z;
  input_feature_num : Z;
  output_feature_num : Z;
  num_channels : pyval;
  kernel_size : pyval;
  dropout : pyval;
  optimizer : pyval;
  loss : pyval;
  lr : pyval
}.

Definition default_num_channels : pyval := PyList (replicate 8 (PyInt 30)).
Definition default_kernel_size : pyval := PyInt 7.
#[warnings="-inexact-float"]
Definition default_dropout : pyval := PyFloat 0.2%float.
Definition default_optimizer : pyval := PyStr "Adam".
Definition default_loss : pyval := PyStr "mse".
#[warnings="-inexact-float"]
Definition default_lr : pyval := PyFloat 0.001%float.

(** The defaults of [fit] and [evaluate]. *)
Definition default_epochs : pyval := PyInt 1.
Definition default_metric : pyval := PyStr "mse".
Definition default_batch_size : pyval := PyInt 32.
Definition default_metrics : pyval := PyList [PyStr "mse"].
Definition default_multioutput : pyval := PyStr "raw_values".

(** ** Methods run on the object and log their calls on the model *)

(** A method body: from the object before the call to its outcome, the
    object after the call, and the calls made on the model, in order. *)
Definition Py (M A : Type) : Type :=
  TCNForecaster M → result A * TCNForecaster M * list call.

#[global] Instance Py_ret {M} : MRet (Py M) :=
  λ A (a : A) self, (Returned a, self, []).

#[global] Instance Py_bind {M} : MBind (Py M) :=
  λ A B (k : A → Py M B) (m : Py M A) self,
    match m self with
    | (Returned a, self', t) =>
        match k a self' with
        | (r, self'', t') => (r, self'', t ++ t')
        end
    | (Raised e, self', t) => (Raised e, self', t)
    end.

Definition raise {M A} (e : exn) : Py M A := λ self, (Raised e, self, []).

Definition lift {M A} (r : result A) : Py M A := λ self, (r, self, []).

(** ** The Python primitives the facade uses *)

(** [t[i]] on a tuple: a negative index counts from the end, and an index
    outside the tuple raises [IndexError]. *)
Definition tuple_getitem (t : list Z) (i : Z) : result Z :=
  let n := Z.of_nat (length t) in
  let j := if decide (i < 0) then i + n else i in
  if decide (0 ≤ j < n) then
    match t !! Z.to_nat j with
    | Some d => Returned d
    | None => Raised (IndexError "tuple index out of range")
    end
  else Raised (IndexError "tuple index out of range").

(** [str.format] on a template and its arguments, for templates whose
    only replacement fields are the automatic [{}]; running out of
    arguments raises [IndexError]. *)
Fixpoint py_format (template : string) (args : list string) : result string :=
  match template with
  | EmptyString => Returned EmptyString
  | String "{"%char (String "}"%char rest) =>
      match args with
      | a :: args' =>
          match py_format rest args' with
          | Returned s => Returned (a +:+ s)
          | Raised e => Raised e
          end
      | [] => Raised (IndexError "Replacement index out of range for positional args tuple")
      end
  | String c rest =>
      match py_format rest args with
      | Returned s => Returned (String c s)
      | Raised e => Raised e
      end
  end.

(** [str(n)] of a Python int. *)
Definition py_str (n : Z) : string := pretty n.

(** [assert cond, template.format(a, b)]: the message is built only when
    the condition is false. *)
Definition py_assert {M} (cond : bool) (template : string) (a b : Z) : Py M unit :=
  if cond then mret tt
  else msg ← lift (py_format template [py_str a; py_str b]);
       raise (AssertionError msg).

Section Facade.
Context {M : Type} `{!TCNPytorch M}.

(** [self.data_config[key]] *)
Definition data_config_getitem (key : string) : Py M Z := λ self,
  match data_config self !! key with
  | Some v => (Returned v, self, [])
  | None => (Raised (KeyError key), self, [])
  end.

(** [self.config[key] = v] *)
Definition config_setitem (key : string) (v : pyval) : Py M unit := λ self,
  (Returned tt,
   mk_TCNForecaster (internal self) (data_config self) (<[key := v]> (config self)),
   []).

(** [self.internal.model_built] *)
Definition internal_model_built : Py M bool := λ self,
  (Returned (model_built (internal self)), self, []).

(** [self.internal.<method>(...)]: the call is logged, the model object
    moves to its new state, and what the call returns or raises is what
    the expression returns or raises. *)
Definition internal_call (c : call) : Py M pyval := λ self,
  let '(r, m') := invoke c (internal self) in
  (r, mk_TCNForecaster m' (data_config self) (config self), [c]).

(** The keywords [fit] passes to [fit_eval] by name. *)
Definition fit_eval_keywords : list string :=
  ["data"; "validation_data"; "epochs"; "metric"].

(** [**self.config] next to the explicit keywords: a key of the dictionary
    that repeats one of them makes the call expression itself a
    [TypeError], before the model is entered. *)
Definition config_kwargs : Py M (gmap string pyval) := λ self,
  if existsb (λ k, bool_decide (is_Some (config self !! k))) fit_eval_keywords
  then (Raised (TypeError "got multiple values for keyword argument"), self, [])
  else (Returned (config self), self, []).

(** *** [__init__] *)

Definition init_data_config (a : init_args) : gmap string Z :=
  <["past_seq_len" := past_seq_len a]>
  (<["future_seq_len" := future_seq_len a]>
  (<["input_feature_num" := input_feature_num a]>
  (<["output_feature_num" := output_feature_num a]> ∅))).

Definition init_config (a : init_args) : gmap string pyval :=
  <["lr" := lr a]>
  (<["loss" := loss a]>
  (<["num_channels" := num_channels a]>
  (<["kernel_size" := kernel_size a]>
  (<["optim" := optimizer a]>
  (<["dropout" := dropout a]> ∅))))).

Definition __init__ (a : init_args) : result (TCNForecaster M) :=
  match new_model false with
  | Returned m => Returned (mk_TCNForecaster m (init_data_config a) (init_config a))
  | Raised e => Raised e
  end.

(** *** [_check_data] *)

Definition x_past_seq_len_template : string :=
  "The x shape should be (batch_size, past_seq_len, input_feature_num),             Got past_seq_len of {} in config while x input shape of {}.".
Definition y_future_seq_len_template : string :=
  "The y shape should be (batch_size, future_seq_len, output_feature_num),             Got future_seq_len of {} in config while y input shape of {}.".
Definition x_input_feature_num_template : string :=
  "The x shape should be (batch_size, past_seq_len, input_feature_num),             Got input_feature_num of {} in config while x input shape of {}.".
Definition y_output_feature_num_template : string :=
  "The y shape should be (batch_size, future_seq_len, output_feature_num),             Got output_feature_num of {} in config while y input shape of {}.".

(** One [assert self.data_config[key] == a.shape[i], template.format(...)]. *)
Definition assert_dim (key : string) (a : ndarray) (i : Z) (template : string)
  : Py M unit :=
  c ← data_config_getitem key;
  d ← lift (tuple_getitem (shape a) i);
  py_assert (bool_decide (c = d)) template c d.

Definition _check_data (x y : ndarray) : Py M unit :=
  assert_dim "past_seq_len" x (-2) x_past_seq_len_template;;
  assert_dim "future_seq_len" y (-2) y_future_seq_len_template;;
  assert_dim "input_feature_num" x (-1) x_input_feature_num_template;;
  assert_dim "output_feature_num" y (-1) y_output_feature_num_template.

(** *** [fit] *)

Definition fit (x y : ndarray) (validation_data : option (ndarray * ndarray))
    (epochs metric batch_size : pyval) : Py M pyval :=
  let validation_data :=
    match validation_data with
    | None => (x, y)
    | Some v => v
    end in
  config_setitem "batch_size" batch_size;;
  _check_data x y;;
  kwargs ← config_kwargs;
  internal_call (Call_fit_eval (x, y) validation_data epochs metric kwargs).

(** *** The gated methods *)

Definition predict (x : ndarray) : Py M pyval :=
  built ← internal_model_built;
  if negb built then
    raise (RuntimeError "You must call fit or restore first before calling predict!")
  else internal_call (Call_predict x).

Definition predict_with_onnx (x : ndarray) (dirname : pyval) : Py M pyval :=
  built ← internal_model_built;
  if negb built then
    raise (RuntimeError "You must call fit or restore first before calling predict!")
  else internal_call (Call_predict_with_onnx x dirname).

Definition evaluate (x y : ndarray) (metrics multioutput : pyval) : Py M pyval :=
  built ← internal_model_built;
  if negb built then
    raise (RuntimeError "You must call fit or restore first before calling evaluate!")
  else internal_call (Call_evaluate x y metrics multioutput).

Definition evaluate_with_onnx (x y : ndarray) (metrics dirname multioutput : pyval)
  : Py M pyval :=
  built ← internal_model_built;
  if negb built then
    raise (RuntimeError "You must call fit or restore first before calling evaluate!")
  else internal_call (Call_evaluate_with_onnx x y metrics dirname multioutput).

Definition save (checkpoint_file : pyval) : Py M pyval :=
  built ← internal_model_built;
  if negb built then
    raise (RuntimeError "You must call fit or restore first before calling save!")
  else (internal_call (Call_save checkpoint_file);; mret PyNone).

(** *** [restore] *)

Definition restore (checkpoint_file : pyval) : Py M pyval :=
  internal_call (Call_restore checkpoint_file);; mret PyNone.

(** ** Clients of the facade *)

(** One public method call, with its arguments. *)
Inductive op :=
| Op_fit (x y : ndarray) (validation_data : option (ndarray * ndarray))
         (epochs metric batch_size : pyval)
| Op_predict (x : ndarray)
| Op_predict_with_onnx (x : ndarray) (dirname : pyval)
| Op_evaluate (x y : ndarray) (metrics multioutput : pyval)
| Op_evaluate_with_onnx (x y : ndarray) (metrics dirname multioutput : pyval)
| Op_save (checkpoint_file : pyval)
| Op_restore (checkpoint_file : pyval).

Definition perform (o : op) : Py M pyval :=
  match o with
  | Op_fit x y v e m b => fit x y v e m b
  | Op_predict x => predict x
  | Op_predict_with_onnx x d => predict_with_onnx x d
  | Op_evaluate x y ms mo => evaluate x y ms mo
  | Op_evaluate_with_onnx x y ms d mo => evaluate_with_onnx x y ms d mo
  | Op_save f => save f
  | Op_restore f => restore f
  end.

(** The object after a method call, whatever the call returned or raised. *)
Definition after {A} (m : Py M A) (self : TCNForecaster M) : TCNForecaster M :=
  (m self).1.2.

(** A client that makes the calls of [ops] one after the other on the same
    object, carrying on after a call that raised. *)
Fixpoint run (ops : list op) (self : TCNForecaster M) : TCNForecaster M :=
  match ops with
  | [] => self
  | o :: ops' => run ops' (after (perform o) self)
  end.

(** The objects a client can hold: built by [__init__ a], then used through
    the public methods only. *)
Definition instance_of (a : init_args) (self : TCNForecaster M) : Prop :=
  ∃ s0 ops, __init__ a = Returned s0 ∧ self = run ops s0.

(** The [batch_size] of the last [fit] among [ops], if there is one. *)
Fixpoint last_batch_size (ops : list op) (acc : option pyval) : option pyval :=
  match ops with
  | [] => acc
  | Op_fit _ _ _ _ _ b :: ops' => last_batch_size ops' (Some b)
  | _ :: ops' => last_batch_size ops' acc
  end.

(** The two public methods from which, by the specification, a model comes
    out built. *)
Definition is_fit_or_restore (o : op) : bool :=
  match o with
  | Op_fit _ _ _ _ _ _ | Op_restore _ => true
  | _ => false
  end.

End Facade.

(** ** What the specification says of the model class *)

(** Modelled from the spec: the class [TCNPytorch] (module
    [zoo.chronos.model.tcn]) is not among the sources.  Of its constructor
    the specification says that construction "creates an unbuilt
    ModelHandle": the constructor returns, and the built flag of the new
    object is false. *)
Definition new_model_unbuilt (M : Type) `{!TCNPytorch M} : Prop :=
  ∃ m, new_model false = Returned m ∧ model_built m = false.

(** Modelled from the spec: the method [TCNPytorch.restore] is not among
    the sources.  The specification says that restore "on success leaves
    ModelHandle built": after a [restore] that returned, the built flag is
    true. *)
Definition restore_leaves_built (M : Type) `{!TCNPytorch M} : Prop :=
  ∀ f (m m' : M) v,
    invoke (Call_restore f) m = (Returned v, m') → model_built m' = true.

(** Modelled from the spec: a stand-in for the absent class [TCNPytorch],
    with the behaviour the specification gives the model: it starts
    unbuilt, [fit_eval] and a successful [restore] build it, [save] writes
    a checkpoint, and [restore] of a path without checkpoint fails.  The
    checkpoints the model can see are part of its state; a new model sees
    one, ["tcn.ckpt"]. *)
Record ref_model := mk_ref_model {
  ref_built : bool;
  ref_checkpoints : gset string
}.

Definition ref_invoke (c : call) (m : ref_model) : result pyval * ref_model :=
  match c with
  | Call_fit_eval _ _ _ metric _ =>
      (Returned (PyList [metric]), mk_ref_model true (ref_checkpoints m))
  | Call_predict x | Call_predict_with_onnx x _ =>
      if ref_built m then (Returned (PyArray x), m)
      else (Raised (ModelError "model is not built"), m)
  | Call_evaluate _ _ metrics _ | Call_evaluate_with_onnx _ _ metrics _ _ =>
      if ref_built m then (Returned metrics, m)
      else (Raised (ModelError "model is not built"), m)
  | Call_save (PyStr f) =>
      (Returned PyNone, mk_ref_model (ref_built m) ({[f]} ∪ ref_checkpoints m))
  | Call_restore (PyStr f) =>
      if bool_decide (f ∈ ref_checkpoints m)
      then (Returned PyNone, mk_ref_model true (ref_checkpoints m))
      else (Raised (ModelError "no such checkpoint"), m)
  | Call_save _ | Call_restore _ =>
      (Raised (ModelError "path is not a string"), m)
  end.

#[global] Instance ref_TCNPytorch : TCNPytorch ref_model := {
  new_model _ := Returned (mk_ref_model false {["tcn.ckpt"]});
  model_built := ref_built;
  invoke := ref_invoke
}.

(** ** Sample data: the scenario of the class docstring *)

#[warnings="-inexact-float"]
Definition docstring_args : init_args :=
  mk_init_args 24 5 1 1 (PyList [PyInt 16; PyInt 16]) (PyInt 4)
    default_dropout default_optimizer (PyStr "mae") (PyFloat 0.01%float).

Definition array_of_shape (s : list Z) : ndarray := mk_ndarray s [].

(** The forecaster of the docstring over the stand-in model, as
    [__init__] leaves it. *)
Definition docstring_self : TCNForecaster ref_model :=
  mk_TCNForecaster (mk_ref_model false {["tcn.ckpt"]})
    (init_data_config docstring_args) (init_config docstring_args).

(** Arguments no training run could use: negative lengths, no features, a
    dropout of 1.5, a negative learning rate, an optimizer that is no
    string. *)
Definition senseless_args : init_args :=
  mk_init_args (-3) 0 (-1) (-7) (PyList []) (PyInt (-4))
    (PyFloat 1.5%float) PyNone (PyStr "no such loss") (PyFloat (-1)%float).

Definition x_train : ndarray := array_of_shape [10; 24; 1].
Definition y_train : ndarray := array_of_shape [10; 5; 1].
(** x with 23 steps instead of 24. *)
Definition x_short : ndarray := array_of_shape [10; 23; 1].
(** x with two features instead of one. *)
Definition x_wide : ndarray := array_of_shape [10; 24; 2].
(** y with four steps instead of five. *)
Definition y_short : ndarray := array_of_shape [10; 4; 1].
(** y with one dimension only. *)
Definition y_flat : ndarray := array_of_shape [10].
(** x of rank two and y of rank five, with the configured last two
    dimensions. *)
Definition x_rank2 : ndarray := array_of_shape [24; 1].
Definition y_rank5 : ndarray := array_of_shape [7; 3; 2; 5; 1].

(** A client that fits with batch size 64, predicts, then calls [fit] with
    batch size 16 on an x that is too short. *)
Definition sample_calls : list op :=
  [Op_fit x_train y_train None default_epochs default_metric (PyInt 64);
   Op_predict x_train;
   Op_fit x_short y_train None default_epochs default_metric (PyInt 16)].

(** A client that tries the gated methods only. *)
Definition gated_calls : list op :=
  [Op_predict x_train;
   Op_save (PyStr "other.ckpt");
   Op_evaluate_with_onnx x_train y_train default_metrics PyNone default_multioutput].

(** The object right after [self.config["batch_size"] = b]. *)
Definition with_batch_size {M} (b : pyval) (self : TCNForecaster M) : TCNForecaster M :=
  mk_TCNForecaster (internal self) (data_config self)
    (<["batch_size" := b]> (config self)).

(** The text of a failed shape check: the array [a] ("x" or "y"), its
    expected layout, the [field] of the configuration, the configured
    value [c] and the dimension [d] found. *)
Definition shape_message (a layout field : string) (c d : Z) : string :=
  "The " +:+ a +:+ " shape should be (batch_size, " +:+ layout +:+ "),"
  +:+ "             Got " +:+ field +:+ " of " +:+ py_str c
  +:+ " in config while " +:+ a +:+ " input shape of " +:+ py_str d +:+ ".".

Definition x_layout : string := "past_seq_len, input_feature_num".
Definition y_layout : string := "future_seq_len, output_feature_num".

(** The order of the four checks as the specification words it: the two
    dimensions of x first, then the two of y.  It follows the
    specification, not the source, and is here to be compared with
    [_check_data]. *)
Definition check_data_spec_order {M} (x y : ndarray) : Py M unit :=
  assert_dim "past_seq_len" x (-2) x_past_seq_len_template;;
  assert_dim "input_feature_num" x (-1) x_input_feature_num_template;;
  assert_dim "future_seq_len" y (-2) y_future_seq_len_template;;
  assert_dim "output_feature_num" y (-1) y_output_feature_num_template.

(** The docstring's forecaster once its model is built. *)
Definition built_self : TCNForecaster ref_model :=
  mk_TCNForecaster (mk_ref_model true {["tcn.ckpt"]})
    (init_data_config docstring_args) (init_config docstring_args).

(** The forecaster [__init__] makes of [senseless_args]. *)
Definition senseless_self : TCNForecaster ref_model :=
  mk_TCNForecaster (mk_ref_model false {["tcn.ckpt"]})
    (init_data_config senseless_args) (init_config senseless_args).

(** The docstring's forecaster after [del self.data_config["past_seq_len"]]
    by its client. *)
Definition keyless_self : TCNForecaster ref_model :=
  mk_TCNForecaster (mk_ref_model false {["tcn.ckpt"]})
    (delete "past_seq_len" (init_data_config docstring_args))
    (init_config docstring_args).

(** x with one dimension only, and a batch of longer series with the same
    last two dimensions as [x_train] and [y_train]. *)
Definition x_flat : ndarray := array_of_shape [24].
Definition x_batch : ndarray := array_of_shape [3; 128; 24; 1].
Definition y_batch : ndarray := array_of_shape [3; 128; 5; 1].

(** Validation data that fits no configuration. *)
Definition odd_validation_data : ndarray * ndarray := (y_flat, x_wide).

(** * Properties *)

(** ** Tuples and messages *)

Lemma tuple_getitem_penultimate (l : list Z) (a b : Z) :
  tuple_getitem (l ++ [a; b]) (-2) = Returned a.
Proof.
  unfold tuple_getitem. rewrite length_app. simpl length.
  rewrite (decide_True (P := -2 < 0)) by lia.
  case_decide; [|lia].
  rewrite lookup_app_r by lia.
  by replace (Z.to_nat (-2 + Z.of_nat (length l + 2)) - length l)%nat with 0%nat by lia.
Qed.

Lemma tuple_getitem_last (l : list Z) (a b : Z) :
  tuple_getitem (l ++ [a; b]) (-1) = Returned b.
Proof.
  unfold tuple_getitem. rewrite length_app. simpl length.
  rewrite (decide_True (P := -1 < 0)) by lia.
  case_decide; [|lia].
  rewrite lookup_app_r by lia.
  by replace (Z.to_nat (-1 + Z.of_nat (length l + 2)) - length l)%nat with 1%nat by lia.
Qed.

Lemma tuple_getitem_penultimate_short (t : list Z) :
  (length t < 2)%nat →
  tuple_getitem t (-2) = Raised (IndexError "tuple index out of range").
Proof.
  intros Hlen. unfold tuple_getitem.
  rewrite (decide_True (P := -2 < 0)) by lia.
  by case_decide; [lia|].
Qed.

(** A tuple with at least two entries ends in two entries. *)
Lemma rank2_split (t : list Z) :
  (2 ≤ length t)%nat → ∃ l a b, t = l ++ [a; b].
Proof.
  intros Hlen.
  destruct (rev t) as [|b [|a r]] eqn:Hrev.
  - apply (f_equal length) in Hrev. rewrite length_rev in Hrev. simpl in Hrev. lia.
  - apply (f_equal length) in Hrev. rewrite length_rev in Hrev. simpl in Hrev. lia.
  - exists (rev r), a, b.
    rewrite <- (rev_involutive t), Hrev. simpl.
    by rewrite <- app_assoc.
Qed.

Lemma format_x_past_seq_len (c d : Z) :
  py_format x_past_seq_len_template [py_str c; py_str d]
  = Returned (shape_message "x" x_layout "past_seq_len" c d).
Proof. reflexivity. Qed.

Lemma format_y_future_seq_len (c d : Z) :
  py_format y_future_seq_len_template [py_str c; py_str d]
  = Returned (shape_message "y" y_layout "future_seq_len" c d).
Proof. reflexivity. Qed.

Lemma format_x_input_feature_num (c d : Z) :
  py_format x_input_feature_num_template [py_str c; py_str d]
  = Returned (shape_message "x" x_layout "input_feature_num" c d).
Proof. reflexivity. Qed.

Lemma format_y_output_feature_num (c d : Z) :
  py_format y_output_feature_num_template [py_str c; py_str d]
  = Returned (shape_message "y" y_layout "output_feature_num" c d).
Proof. reflexivity. Qed.

(** ** The shape checks *)

Section Checks.
Context {M : Type}.
Implicit Types (self : TCNForecaster M) (x y : ndarray) (a : init_args).

Lemma bind_pure {A B} (m : Py M A) (k : A → Py M B) self self' v :
  m self = (Returned v, self', []) → (m ≫= k) self = k v self'.
Proof.
  intros Hm. unfold mbind, Py_bind. rewrite Hm.
  by destruct (k v self') as [[r s] t].
Qed.

Lemma bind_raised {A B} (m : Py M A) (k : A → Py M B) self self' e t :
  m self = (Raised e, self', t) → (m ≫= k) self = (Raised e, self', t).
Proof. intros Hm. unfold mbind, Py_bind. by rewrite Hm. Qed.

(** A check reads the object and the array and changes nothing. *)
Lemma assert_dim_pure key (arr : ndarray) i template self :
  ∃ r, assert_dim (M := M) key arr i template self = (r, self, []).
Proof.
  unfold assert_dim, data_config_getitem, lift, py_assert, raise,
    mbind, Py_bind, mret, Py_ret.
  destruct (data_config self !! key) as [c|]; [|by eexists].
  destruct (tuple_getitem (shape arr) i) as [d|e]; [|by eexists].
  destruct (bool_decide (c = d)); [by eexists|].
  destruct (py_format template _); by eexists.
Qed.

Lemma check_data_pure x y self :
  ∃ r, _check_data (M := M) x y self = (r, self, []).
Proof.
  unfold _check_data.
  destruct (assert_dim_pure "past_seq_len" x (-2) x_past_seq_len_template self)
    as [[[]|e1] H1]; [|erewrite bind_raised; eauto].
  erewrite bind_pure by exact H1.
  destruct (assert_dim_pure "future_seq_len" y (-2) y_future_seq_len_template self)
    as [[[]|e2] H2]; [|erewrite bind_raised; eauto].
  erewrite bind_pure by exact H2.
  destruct (assert_dim_pure "input_feature_num" x (-1) x_input_feature_num_template self)
    as [[[]|e3] H3]; [|erewrite bind_raised; eauto].
  erewrite bind_pure by exact H3.
  apply assert_dim_pure.
Qed.

(** What one check does once the configured value and the dimension are
    known. *)
Lemma assert_dim_eval key (arr : ndarray) i template self c d msg :
  data_config self !! key = Some c →
  tuple_getitem (shape arr) i = Returned d →
  py_format template [py_str c; py_str d] = Returned msg →
  assert_dim key arr i template self
  = (if bool_decide (c = d) then Returned tt else Raised (AssertionError msg),
     self, []).
Proof.
  intros Hc Hd Hmsg.
  unfold assert_dim, data_config_getitem, lift, py_assert, raise,
    mbind, Py_bind, mret, Py_ret.
  rewrite Hc, Hd. simpl.
  destruct (bool_decide (c = d)); [done|].
  by rewrite Hmsg.
Qed.

(** A check on an array without the dimension asked for. *)
Lemma assert_dim_index_error key (arr : ndarray) i template self c e :
  data_config self !! key = Some c →
  tuple_getitem (shape arr) i = Raised e →
  assert_dim key arr i template self = (Raised e, self, []).
Proof.
  intros Hc Hd.
  unfold assert_dim, data_config_getitem, lift, mbind, Py_bind.
  by rewrite Hc, Hd.
Qed.

Lemma init_data_config_lookup a :
  init_data_config a !! "past_seq_len" = Some (past_seq_len a)
  ∧ init_data_config a !! "future_seq_len" = Some (future_seq_len a)
  ∧ init_data_config a !! "input_feature_num" = Some (input_feature_num a)
  ∧ init_data_config a !! "output_feature_num" = Some (output_feature_num a).
Proof. unfold init_data_config. by simplify_map_eq. Qed.

(** [_check_data] on arrays of rank at least two: the four comparisons in
    the order of the source. *)
Lemma check_data_rank2 a self x y (lx ly : list Z) (x2 x1 y2 y1 : Z) :
  data_config self = init_data_config a →
  shape x = lx ++ [x2; x1] →
  shape y = ly ++ [y2; y1] →
  _check_data x y self
  = (if bool_decide (past_seq_len a = x2) then
       if bool_decide (future_seq_len a = y2) then
         if bool_decide (input_feature_num a = x1) then
           if bool_decide (output_feature_num a = y1) then Returned tt
           else Raised (AssertionError
                  (shape_message "y" y_layout "output_feature_num"
                     (output_feature_num a) y1))
         else Raised (AssertionError
                (shape_message "x" x_layout "input_feature_num"
                   (input_feature_num a) x1))
       else Raised (AssertionError
              (shape_message "y" y_layout "future_seq_len" (future_seq_len a) y2))
     else Raised (AssertionError
            (shape_message "x" x_layout "past_seq_len" (past_seq_len a) x2)),
     self, []).
Proof.
  intros Hcfg Hx Hy.
  destruct (init_data_config_lookup a) as (Hp & Hf & Hi & Ho).
  rewrite <- Hcfg in Hp, Hf, Hi, Ho.
  unfold _check_data.
  pose proof (assert_dim_eval "past_seq_len" x (-2) _ self _ _ _ Hp
    ltac:(rewrite Hx; apply tuple_getitem_penultimate)
    (format_x_past_seq_len _ _)) as H1.
  destruct (bool_decide (past_seq_len a = x2));
    [erewrite bind_pure by exact H1|by erewrite bind_raised by exact H1].
  pose proof (assert_dim_eval "future_seq_len" y (-2) _ self _ _ _ Hf
    ltac:(rewrite Hy; apply tuple_getitem_penultimate)
    (format_y_future_seq_len _ _)) as H2.
  destruct (bool_decide (future_seq_len a = y2));
    [erewrite bind_pure by exact H2|by erewrite bind_raised by exact H2].
  pose proof (assert_dim_eval "input_feature_num" x (-1) _ self _ _ _ Hi
    ltac:(rewrite Hx; apply tuple_getitem_last)
    (format_x_input_feature_num _ _)) as H3.
  destruct (bool_decide (input_feature_num a = x1));
    [erewrite bind_pure by exact H3|by erewrite bind_raised by exact H3].
  exact (assert_dim_eval "output_feature_num" y (-1) _ self _ _ _ Ho
    ltac:(rewrite Hy; apply tuple_getitem_last)
    (format_y_output_feature_num _ _)).
Qed.

End Checks.

(** ** The methods, one by one *)

Section Methods.
Context {M : Type} `{!TCNPytorch M}.
Implicit Types (self : TCNForecaster M) (x y : ndarray) (a : init_args).

(** Unfolds a method down to the model's [invoke] and splits on what the
    model answers. *)
Ltac run_method :=
  unfold after, predict, predict_with_onnx, evaluate, evaluate_with_onnx,
    save, restore, internal_model_built, internal_call, raise,
    mbind, Py_bind, mret, Py_ret;
  repeat match goal with
         | |- context [model_built ?m] => destruct (model_built m); simpl
         | |- context [invoke ?c ?m] => destruct (invoke c m) as [[?|?] ?]; simpl
         end.

(** [fit], split at the outcome of the shape checks. *)
Lemma fit_unfold x y v epochs metric b self :
  fit x y v epochs metric b self
  = match (_check_data x y (with_batch_size b self)).1.1 with
    | Returned _ =>
        (kwargs ← config_kwargs;
         internal_call (Call_fit_eval (x, y) (default (x, y) v) epochs metric kwargs))
          (with_batch_size b self)
    | Raised e => (Raised e, with_batch_size b self, [])
    end.
Proof.
  unfold fit.
  erewrite bind_pure by reflexivity. fold (with_batch_size b self).
  destruct (check_data_pure x y (with_batch_size b self)) as [[[]|e] Hc];
    rewrite Hc; simpl.
  - erewrite bind_pure by exact Hc. by destruct v.
  - by erewrite bind_raised by exact Hc.
Qed.

(** The keyword arguments of [fit_eval] do not touch the object. *)
Lemma fit_eval_call_config (c : gmap string pyval → call) self :
  config (after (kwargs ← config_kwargs; internal_call (c kwargs)) self)
  = config self
  ∧ data_config (after (kwargs ← config_kwargs; internal_call (c kwargs)) self)
    = data_config self.
Proof.
  unfold after, config_kwargs, internal_call, mbind, Py_bind.
  destruct (existsb _ _); [done|].
  by destruct (invoke _ _) as [[?|?] ?].
Qed.

Lemma fit_config x y v epochs metric b self :
  config (after (fit x y v epochs metric b) self) = <["batch_size" := b]> (config self).
Proof.
  unfold after at 1. rewrite fit_unfold.
  destruct (_check_data _ _ _).1.1; [|done].
  apply (fit_eval_call_config (Call_fit_eval _ _ _ _) (with_batch_size b self)).
Qed.

Lemma fit_data_config x y v epochs metric b self :
  data_config (after (fit x y v epochs metric b) self) = data_config self.
Proof.
  unfold after at 1. rewrite fit_unfold.
  destruct (_check_data _ _ _).1.1; [|done].
  apply (fit_eval_call_config (Call_fit_eval _ _ _ _) (with_batch_size b self)).
Qed.

(** No public method writes [self.data_config]. *)
Lemma perform_data_config (o : op) self :
  data_config (after (perform o) self) = data_config self.
Proof.
  destruct o; simpl; try apply fit_data_config; by run_method.
Qed.

(** Only [fit] writes [self.config], and only its ["batch_size"] entry. *)
Lemma perform_config (o : op) self :
  config (after (perform o) self)
  = match o with
    | Op_fit _ _ _ _ _ b => <["batch_size" := b]> (config self)
    | _ => config self
    end.
Proof.
  destruct o; simpl; try apply fit_config; by run_method.
Qed.

Lemma run_data_config (ops : list op) self :
  data_config (run ops self) = data_config self.
Proof.
  revert self. induction ops as [|o ops IH]; intros self; simpl; [done|].
  by rewrite IH, perform_data_config.
Qed.

Lemma run_config_batch_size (ops : list op) self :
  config (run ops self) !! "batch_size"
  = last_batch_size ops (config self !! "batch_size").
Proof.
  revert self. induction ops as [|o ops IH]; intros self; simpl; [done|].
  rewrite IH, perform_config.
  destruct o; try done.
  by rewrite lookup_insert_eq.
Qed.

Lemma run_config_other (ops : list op) self (k : string) :
  k ≠ "batch_size" → config (run ops self) !! k = config self !! k.
Proof.
  intros Hk. revert self. induction ops as [|o ops IH]; intros self; simpl; [done|].
  rewrite IH, perform_config.
  destruct o; try done.
  by rewrite lookup_insert_ne.
Qed.

(** On an unbuilt model the gated methods change nothing, so a client that
    calls neither [fit] nor [restore] keeps the object it started with. *)
Lemma run_gated_unbuilt (ops : list op) self :
  model_built (internal self) = false →
  forallb (λ o, negb (is_fit_or_restore o)) ops = true →
  run ops self = self.
Proof.
  intros Hbuilt. induction ops as [|o ops IH]; simpl; [done|].
  intros [Ho Hops]%andb_prop.
  assert (after (perform o) self = self) as ->; [|by apply IH].
  destruct o; try discriminate; simpl;
    unfold after, predict, predict_with_onnx, evaluate, evaluate_with_onnx,
      save, internal_model_built, raise, mbind, Py_bind;
    by rewrite Hbuilt.
Qed.

(** *** What holds of every object a client can hold *)

Lemma instance_data_config a self :
  instance_of a self → data_config self = init_data_config a.
Proof.
  intros (s0 & ops & Hinit & ->).
  rewrite run_data_config.
  unfold __init__ in Hinit. destruct (new_model false); by simplify_eq.
Qed.

Lemma instance_config a self (k : string) :
  instance_of a self → k ≠ "batch_size" → config self !! k = init_config a !! k.
Proof.
  intros (s0 & ops & Hinit & ->) Hk.
  rewrite run_config_other by done.
  unfold __init__ in Hinit. destruct (new_model false); by simplify_eq.
Qed.

(** After the assignment of [fit], the dictionary is the one of
    [__init__] with the new ["batch_size"]. *)
Lemma instance_config_with_batch_size a self b :
  instance_of a self →
  <["batch_size" := b]> (config self) = <["batch_size" := b]> (init_config a).
Proof.
  intros Hinst. apply map_eq. intros k.
  destruct (decide (k = "batch_size")) as [->|Hk].
  - by rewrite !lookup_insert_eq.
  - rewrite !lookup_insert_ne by done. by apply instance_config.
Qed.

Lemma init_config_no_keyword a b :
  existsb (λ k, bool_decide (is_Some ((<["batch_size" := b]> (init_config a)) !! k)))
    fit_eval_keywords = false.
Proof.
  unfold fit_eval_keywords, init_config. simpl.
  repeat (rewrite bool_decide_eq_false_2;
          [|simplify_map_eq; by intros [? ?]]).
  done.
Qed.

Lemma config_kwargs_instance a b self :
  config self = <["batch_size" := b]> (init_config a) →
  config_kwargs self = (Returned (config self), self, []).
Proof.
  intros Hcfg. unfold config_kwargs. rewrite Hcfg.
  by rewrite init_config_no_keyword.
Qed.

End Methods.

(** ** The claims *)

Section Claims.
Context {M : Type} `{!TCNPytorch M}.
Implicit Types (self : TCNForecaster M) (x y : ndarray) (a : init_args).

(** C1. As long as the model's built flag is false and the client has
    called neither [fit] nor [restore] since, the flag stays false, and
    [predict], [evaluate] and [save] each raise the "call fit or restore
    first" [RuntimeError]: the object is left as it was and no call at all
    is made on the model. *)
Theorem unbuilt_predict_evaluate_save_raise (s0 : TCNForecaster M) (ops : list op)
    x y (metrics multioutput f : pyval) :
  model_built (internal s0) = false →
  forallb (λ o, negb (is_fit_or_restore o)) ops = true →
  let self := run ops s0 in
  model_built (internal self) = false
  ∧ predict x self
    = (Raised (RuntimeError "You must call fit or restore first before calling predict!"),
       self, [])
  ∧ evaluate x y metrics multioutput self
    = (Raised (RuntimeError "You must call fit or restore first before calling evaluate!"),
       self, [])
  ∧ save f self
    = (Raised (RuntimeError "You must call fit or restore first before calling save!"),
       self, []).
Proof.
  intros Hbuilt Hops self.
  assert (self = s0) as -> by exact (run_gated_unbuilt ops s0 Hbuilt Hops).
  split; [exact Hbuilt|].
  unfold predict, evaluate, save, internal_model_built, raise, mbind, Py_bind.
  by rewrite Hbuilt.
Qed.

(** C2 (amended). When x's second-to-last or last dimension differs from
    the configured one, [fit] raises before any call on the model: an
    [AssertionError] of the shape checks when y has two dimensions or more,
    and in any case some exception, with no call made. *)
Theorem fit_x_mismatch_raises a self x y v (epochs metric b : pyval)
    (lx : list Z) (x2 x1 : Z) :
  instance_of a self →
  shape x = lx ++ [x2; x1] →
  x2 ≠ past_seq_len a ∨ x1 ≠ input_feature_num a →
  ((2 ≤ length (shape y))%nat →
   ∃ msg, fit x y v epochs metric b self
          = (Raised (AssertionError msg), with_batch_size b self, []))
  ∧ ∃ e, fit x y v epochs metric b self = (Raised e, with_batch_size b self, []).
Proof.
  intros Hinst Hx Hne.
  assert (data_config (with_batch_size b self) = init_data_config a) as Hcfg
    by exact (instance_data_config _ _ Hinst).
  assert (∀ (ly : list Z) (y2 y1 : Z), shape y = ly ++ [y2; y1] →
          ∃ msg, fit x y v epochs metric b self
                 = (Raised (AssertionError msg), with_batch_size b self, []))
    as Hrank2.
  { intros ly y2 y1 Hy. rewrite fit_unfold.
    rewrite (check_data_rank2 a _ x y lx ly x2 x1 y2 y1 Hcfg Hx Hy). simpl.
    repeat case_bool_decide; try (by eexists).
    destruct Hne; congruence. }
  split.
  - intros Hlen. destruct (rank2_split _ Hlen) as (ly & y2 & y1 & Hy). eauto.
  - destruct (decide (2 ≤ length (shape y))%nat) as [Hlen|Hlen].
    + destruct (rank2_split _ Hlen) as (ly & y2 & y1 & Hy).
      destruct (Hrank2 ly y2 y1 Hy) as [msg Hmsg]. eauto.
    + rewrite fit_unfold.
      destruct (init_data_config_lookup a) as (Hp & Hf & _).
      rewrite <- Hcfg in Hp, Hf.
      pose proof (assert_dim_eval "past_seq_len" x (-2) _ _ _ _ _ Hp
        ltac:(rewrite Hx; apply tuple_getitem_penultimate)
        (format_x_past_seq_len _ _)) as H1.
      unfold _check_data.
      destruct (bool_decide (past_seq_len a = x2)).
      * erewrite bind_pure by exact H1.
        erewrite bind_raised;
          [|apply (assert_dim_index_error _ _ _ _ _ _ _ Hf);
            apply tuple_getitem_penultimate_short; lia].
        by eexists.
      * erewrite bind_raised by exact H1. by eexists.
Qed.

(** C3 (amended). On arrays with two dimensions or more the checks run in
    the order of the source: x's second-to-last against past_seq_len, y's
    second-to-last against future_seq_len, x's last against
    input_feature_num, y's last against output_feature_num.  The first one
    that fails gives the error its field name and its two values. *)
Theorem check_data_first_failure a self x y (lx ly : list Z) (x2 x1 y2 y1 : Z) :
  instance_of a self →
  shape x = lx ++ [x2; x1] →
  shape y = ly ++ [y2; y1] →
  (x2 ≠ past_seq_len a →
   _check_data x y self
   = (Raised (AssertionError
        (shape_message "x" x_layout "past_seq_len" (past_seq_len a) x2)), self, []))
  ∧ (x2 = past_seq_len a → y2 ≠ future_seq_len a →
     _check_data x y self
     = (Raised (AssertionError
          (shape_message "y" y_layout "future_seq_len" (future_seq_len a) y2)), self, []))
  ∧ (x2 = past_seq_len a → y2 = future_seq_len a → x1 ≠ input_feature_num a →
     _check_data x y self
     = (Raised (AssertionError
          (shape_message "x" x_layout "input_feature_num" (input_feature_num a) x1)),
        self, []))
  ∧ (x2 = past_seq_len a → y2 = future_seq_len a → x1 = input_feature_num a →
     y1 ≠ output_feature_num a →
     _check_data x y self
     = (Raised (AssertionError
          (shape_message "y" y_layout "output_feature_num" (output_feature_num a) y1)),
        self, [])).
Proof.
  intros Hinst Hx Hy.
  rewrite (check_data_rank2 a self x y lx ly x2 x1 y2 y1
             (instance_data_config _ _ Hinst) Hx Hy).
  repeat split; intros; repeat case_bool_decide; congruence.
Qed.

(** C4. On arrays of the configured shape, [fit] without validation data
    makes exactly one call on the model: [fit_eval] with [(x, y)] as data
    and as validation data, the [epochs] and [metric] it was given, and as
    further keywords the whole configuration dictionary, the six entries
    of [__init__] and the new ["batch_size"].  What [fit_eval] returns or
    raises is what [fit] returns or raises. *)
Theorem fit_delegates_to_fit_eval a self x y (epochs metric b : pyval) (lx ly : list Z) :
  instance_of a self →
  shape x = lx ++ [past_seq_len a; input_feature_num a] →
  shape y = ly ++ [future_seq_len a; output_feature_num a] →
  let kwargs : gmap string pyval :=
    list_to_map [("batch_size", b); ("lr", lr a); ("loss", loss a);
                 ("num_channels", num_channels a); ("kernel_size", kernel_size a);
                 ("optim", optimizer a); ("dropout", dropout a)] in
  let c := Call_fit_eval (x, y) (x, y) epochs metric kwargs in
  fit x y None epochs metric b self
  = ((invoke c (internal self)).1,
     mk_TCNForecaster (invoke c (internal self)).2 (data_config self) kwargs,
     [c]).
Proof.
  intros Hinst Hx Hy kwargs c.
  rewrite fit_unfold.
  rewrite (check_data_rank2 a (with_batch_size b self) x y lx ly _ _ _ _
             (instance_data_config _ _ Hinst) Hx Hy).
  rewrite !bool_decide_eq_true_2 by done. cbn [fst].
  erewrite bind_pure
    by exact (config_kwargs_instance a b (with_batch_size b self)
                (instance_config_with_batch_size a self b Hinst)).
  unfold internal_call, with_batch_size. cbn [internal data_config config].
  rewrite (instance_config_with_batch_size a self b Hinst).
  change (<["batch_size" := b]> (init_config a)) with kwargs.
  change (default (x, y) None) with (x, y). fold c.
  by destruct (invoke c (internal self)) as [r m'].
Qed.

(** C5. On every object a client can hold, a call of [fit] with
    [batch_size=b] leaves the configuration dictionary as it was except
    for ["batch_size"], which is [b] whatever the call returned or
    raised; at any time the entry is the one of the latest [fit], and
    there is none before the first. *)
Theorem batch_size_is_latest_fit a (s0 : TCNForecaster M) (ops : list op)
    x y v (epochs metric b : pyval) :
  __init__ a = Returned s0 →
  let self := run ops s0 in
  config (after (fit x y v epochs metric b) self) = <["batch_size" := b]> (config self)
  ∧ config (after (fit x y v epochs metric b) self) !! "batch_size" = Some b
  ∧ config self !! "batch_size" = last_batch_size ops None.
Proof.
  intros Hinit self.
  split; [apply fit_config|].
  split; [by rewrite fit_config, lookup_insert_eq|].
  unfold self. rewrite run_config_batch_size.
  unfold __init__ in Hinit. destruct (new_model false); by simplify_eq.
Qed.

(** C6. [restore] has no built gate: on any object, built or not, it
    makes the one call [restore] on the model and returns [None] or lets
    the model's exception through.  When the model's [restore] leaves the
    model built, as the specification has it, a [predict] right after a
    [restore] that returned is handed to the model and is not stopped by
    the gate. *)
Theorem restore_is_not_gated self (f : pyval) x :
  restore_leaves_built M →
  let r := invoke (Call_restore f) (internal self) in
  restore f self
  = (match r.1 with
     | Returned _ => Returned PyNone
     | Raised e => Raised e
     end,
     mk_TCNForecaster r.2 (data_config self) (config self),
     [Call_restore f])
  ∧ ∀ v self' t,
      restore f self = (Returned v, self', t) →
      let p := invoke (Call_predict x) (internal self') in
      predict x self'
      = (p.1, mk_TCNForecaster p.2 (data_config self') (config self'),
         [Call_predict x]).
Proof.
  intros Hlaw r.
  assert (restore f self
          = (match r.1 with
             | Returned _ => Returned PyNone
             | Raised e => Raised e
             end,
             mk_TCNForecaster r.2 (data_config self) (config self),
             [Call_restore f])) as Hrestore.
  { unfold restore, internal_call, mbind, Py_bind, mret, Py_ret. fold r.
    by destruct r as [[w|e] m']. }
  split; [exact Hrestore|].
  intros v self' t Hret p.
  rewrite Hrestore in Hret.
  destruct r as [[w|e] m'] eqn:Hr; simpl in Hret; [|discriminate].
  injection Hret as _ <- _.
  assert (model_built m' = true) as Hbuilt by exact (Hlaw f _ _ _ Hr).
  unfold predict, internal_model_built, internal_call, mbind, Py_bind.
  cbn [internal data_config config] in *.
  rewrite Hbuilt. cbn [negb].
  unfold p. cbn [internal].
  by destruct (invoke (Call_predict x) m') as [q m''].
Qed.

(** C7. The four entries of [self.data_config] are those [__init__]
    stored: no sequence of public method calls changes the dictionary, and
    no single call does. *)
Theorem data_config_never_changes a (s0 : TCNForecaster M) (ops : list op) (o : op) :
  __init__ a = Returned s0 →
  data_config (run ops s0) = init_data_config a
  ∧ data_config (after (perform o) (run ops s0)) = data_config (run ops s0)
  ∧ data_config (run ops s0) !! "past_seq_len" = Some (past_seq_len a)
  ∧ data_config (run ops s0) !! "future_seq_len" = Some (future_seq_len a)
  ∧ data_config (run ops s0) !! "input_feature_num" = Some (input_feature_num a)
  ∧ data_config (run ops s0) !! "output_feature_num" = Some (output_feature_num a).
Proof.
  intros Hinit.
  assert (data_config (run ops s0) = init_data_config a) as Hcfg.
  { rewrite run_data_config.
    unfold __init__ in Hinit. destruct (new_model false); by simplify_eq. }
  split; [done|].
  split; [apply perform_data_config|].
  rewrite Hcfg. apply init_data_config_lookup.
Qed.

(** C8. Whatever the arguments, [__init__] returns once the model object
    is created: it raises for none of them, stores the ten values as they
    are in the two dictionaries, with no ["batch_size"] yet, and holds an
    unbuilt model. *)
Theorem init_accepts_any_arguments a :
  new_model_unbuilt M →
  ∃ self,
    __init__ a = Returned self
    ∧ model_built (internal self) = false
    ∧ data_config self
      = list_to_map [("past_seq_len", past_seq_len a);
                     ("future_seq_len", future_seq_len a);
                     ("input_feature_num", input_feature_num a);
                     ("output_feature_num", output_feature_num a)]
    ∧ config self
      = list_to_map [("lr", lr a); ("loss", loss a);
                     ("num_channels", num_channels a);
                     ("kernel_size", kernel_size a);
                     ("optim", optimizer a); ("dropout", dropout a)]
    ∧ config self !! "batch_size" = None.
Proof.
  intros (m & Hnew & Hunbuilt).
  exists (mk_TCNForecaster m (init_data_config a) (init_config a)).
  unfold __init__. rewrite Hnew.
  repeat split; try done.
Qed.

(** The shape checks read [self.data_config] only. *)
Lemma assert_dim_ignores_config key (arr : ndarray) i template self
    (cfg : gmap string pyval) :
  (assert_dim key arr i template
     (mk_TCNForecaster (internal self) (data_config self) cfg)).1.1
  = (assert_dim key arr i template self).1.1.
Proof.
  unfold assert_dim, data_config_getitem, lift, py_assert, raise,
    mbind, Py_bind, mret, Py_ret. cbn [data_config].
  destruct (data_config self !! key); [|done].
  destruct (tuple_getitem _ _); [|done].
  destruct (bool_decide _); [done|].
  by destruct (py_format _ _).
Qed.

Lemma check_data_ignores_config x y self (cfg : gmap string pyval) :
  (_check_data x y (mk_TCNForecaster (internal self) (data_config self) cfg)).1.1
  = (_check_data x y self).1.1.
Proof.
  set (self' := mk_TCNForecaster (internal self) (data_config self) cfg).
  unfold _check_data.
  repeat
    match goal with
    | |- ((assert_dim ?k ?arr ?i ?t ≫= ?f) self').1.1 = _ =>
        let H := fresh "H" in
        let H' := fresh "H" in
        let Heq := fresh "Heq" in
        pose proof (assert_dim_ignores_config k arr i t self cfg) as Heq;
        fold self' in Heq;
        destruct (assert_dim_pure k arr i t self) as [[[]|?] H];
        destruct (assert_dim_pure k arr i t self') as [[[]|?] H'];
        rewrite H, H' in Heq; simpl in Heq; try discriminate;
        [erewrite (bind_pure _ _ self) by exact H;
         erewrite (bind_pure _ _ self') by exact H'
        |erewrite (bind_raised _ _ self) by exact H;
         erewrite (bind_raised _ _ self') by exact H';
         simpl; congruence]
    end.
  apply assert_dim_ignores_config.
Qed.

(** C9. When a shape check fails, [fit] has already assigned
    ["batch_size"]: the call raises the error of the check, no call is
    made on the model, and the object is left with the new batch size. *)
Theorem fit_assigns_before_checking self x y v (epochs metric b : pyval) (msg : string) :
  (_check_data x y self).1.1 = Raised (AssertionError msg) →
  fit x y v epochs metric b self
  = (Raised (AssertionError msg), with_batch_size b self, [])
  ∧ config (after (fit x y v epochs metric b) self) !! "batch_size" = Some b
  ∧ (config self !! "batch_size" ≠ Some b →
     after (fit x y v epochs metric b) self ≠ self).
Proof.
  intros Hcheck.
  assert (fit x y v epochs metric b self
          = (Raised (AssertionError msg), with_batch_size b self, [])) as Hfit.
  { rewrite fit_unfold. unfold with_batch_size at 1.
    by rewrite check_data_ignores_config, Hcheck. }
  split; [exact Hfit|].
  unfold after. rewrite Hfit. cbn [fst snd].
  split.
  - unfold with_batch_size. cbn [config]. apply lookup_insert_eq.
  - intros Hold Heq. apply Hold. rewrite <- Heq at 1.
    unfold with_batch_size. cbn [config]. apply lookup_insert_eq.
Qed.

(** C10. The shape checks look at the last two dimensions only: arrays of
    any rank from two up whose last two dimensions are the configured ones
    pass them, whatever their leading dimensions. *)
Theorem check_data_reads_last_two_only a self x y (lx ly : list Z) :
  instance_of a self →
  shape x = lx ++ [past_seq_len a; input_feature_num a] →
  shape y = ly ++ [future_seq_len a; output_feature_num a] →
  _check_data x y self = (Returned (), self, []).
Proof.
  intros Hinst Hx Hy.
  rewrite (check_data_rank2 a self x y lx ly _ _ _ _
             (instance_data_config _ _ Hinst) Hx Hy).
  by rewrite !bool_decide_eq_true_2.
Qed.

End Claims.

(** ** The claims on the docstring's forecaster *)

(** The stand-in model meets what the specification says of the model. *)
Lemma ref_new_model_unbuilt : new_model_unbuilt ref_model.
Proof. by exists (mk_ref_model false {["tcn.ckpt"]}). Qed.

Lemma ref_restore_leaves_built : restore_leaves_built ref_model.
Proof.
  intros f m m' v. simpl. unfold ref_invoke.
  destruct f; try discriminate.
  case_bool_decide; [|discriminate].
  by intros [= _ <-].
Qed.

Lemma docstring_init : __init__ docstring_args = Returned docstring_self.
Proof. reflexivity. Qed.

Lemma docstring_instance : instance_of docstring_args docstring_self.
Proof. by exists docstring_self, []. Qed.

Lemma unbuilt_predict_evaluate_save_raise_witness :
  let self := run gated_calls docstring_self in
  model_built (internal self) = false
  ∧ predict x_train self
    = (Raised (RuntimeError "You must call fit or restore first before calling predict!"),
       self, [])
  ∧ evaluate x_train y_train default_metrics default_multioutput self
    = (Raised (RuntimeError "You must call fit or restore first before calling evaluate!"),
       self, [])
  ∧ save (PyStr "tcn.ckpt") self
    = (Raised (RuntimeError "You must call fit or restore first before calling save!"),
       self, []).
Proof.
  apply (unbuilt_predict_evaluate_save_raise docstring_self gated_calls);
    reflexivity.
Defined.

(** C2 as stated fails: x has two features where one is configured, y has
    a single dimension, and [fit] raises [IndexError], no
    [AssertionError]. *)
Lemma fit_x_mismatch_flat_y_counterexample :
  shape x_wide = [10; 24; 2]
  ∧ input_feature_num docstring_args = 1
  ∧ fit x_wide y_flat None default_epochs default_metric default_batch_size
      docstring_self
    = (Raised (IndexError "tuple index out of range"),
       with_batch_size default_batch_size docstring_self, [])
  ∧ ¬ ∃ msg self' t,
        fit x_wide y_flat None default_epochs default_metric default_batch_size
          docstring_self
        = (Raised (AssertionError msg), self', t).
Proof.
  assert (fit x_wide y_flat None default_epochs default_metric default_batch_size
            docstring_self
          = (Raised (IndexError "tuple index out of range"),
             with_batch_size default_batch_size docstring_self, [])) as Hfit
    by (vm_compute; reflexivity).
  repeat split; try done.
  intros (msg & self' & t & Habs). rewrite Hfit in Habs. discriminate.
Qed.

Lemma fit_x_mismatch_raises_witness :
  ∃ msg,
    fit x_short y_train None default_epochs default_metric default_batch_size
      docstring_self
    = (Raised (AssertionError msg),
       with_batch_size default_batch_size docstring_self, []).
Proof.
  assert (23 ≠ past_seq_len docstring_args ∨ 1 ≠ input_feature_num docstring_args)
    as Hne by (left; vm_compute; lia).
  assert (2 ≤ length (shape y_train))%nat as Hrank by (simpl; lia).
  pose proof (fit_x_mismatch_raises docstring_args docstring_self
                x_short y_train None default_epochs default_metric
                default_batch_size [10] 23 1
                docstring_instance eq_refl Hne) as [Hassert _].
  exact (Hassert Hrank).
Defined.

(** C3 as stated fails: with a wrong feature count in x and a wrong
    length in y, the order of the specification would name
    input_feature_num; the source names future_seq_len. *)
Lemma check_order_counterexample :
  _check_data x_wide y_short docstring_self
  = (Raised (AssertionError (shape_message "y" y_layout "future_seq_len" 5 4)),
     docstring_self, [])
  ∧ check_data_spec_order x_wide y_short docstring_self
    = (Raised (AssertionError (shape_message "x" x_layout "input_feature_num" 1 2)),
       docstring_self, [])
  ∧ _check_data x_wide y_short docstring_self
    ≠ check_data_spec_order x_wide y_short docstring_self.
Proof.
  assert (_check_data x_wide y_short docstring_self
          = (Raised (AssertionError (shape_message "y" y_layout "future_seq_len" 5 4)),
             docstring_self, [])) as Hcode by (vm_compute; reflexivity).
  assert (check_data_spec_order x_wide y_short docstring_self
          = (Raised (AssertionError
               (shape_message "x" x_layout "input_feature_num" 1 2)),
             docstring_self, [])) as Hspec by (vm_compute; reflexivity).
  split; [exact Hcode|]. split; [exact Hspec|].
  rewrite Hcode, Hspec. intros Heq.
  apply (f_equal (λ r, r.1.1)) in Heq. vm_compute in Heq. discriminate.
Qed.

Lemma check_data_first_failure_witness :
  _check_data x_wide y_short docstring_self
  = (Raised (AssertionError (shape_message "y" y_layout "future_seq_len" 5 4)),
     docstring_self, []).
Proof.
  apply (proj1 (proj2 (check_data_first_failure docstring_args docstring_self
                         x_wide y_short [10] [10] 24 2 4 1
                         docstring_instance eq_refl eq_refl))).
  - reflexivity.
  - discriminate.
Defined.

Lemma fit_delegates_to_fit_eval_witness :
  let kwargs : gmap string pyval :=
    list_to_map [("batch_size", PyInt 32); ("lr", lr docstring_args);
                 ("loss", PyStr "mae");
                 ("num_channels", PyList [PyInt 16; PyInt 16]);
                 ("kernel_size", PyInt 4); ("optim", PyStr "Adam");
                 ("dropout", default_dropout)] in
  fit x_train y_train None (PyInt 1) (PyStr "mse") (PyInt 32) docstring_self
  = (Returned (PyList [PyStr "mse"]),
     mk_TCNForecaster (mk_ref_model true {["tcn.ckpt"]})
       (init_data_config docstring_args) kwargs,
     [Call_fit_eval (x_train, y_train) (x_train, y_train) (PyInt 1) (PyStr "mse")
        kwargs]).
Proof.
  exact (fit_delegates_to_fit_eval docstring_args docstring_self x_train y_train
           (PyInt 1) (PyStr "mse") (PyInt 32) [10] [10]
           docstring_instance eq_refl eq_refl).
Defined.

Lemma batch_size_is_latest_fit_witness :
  config (after (fit x_train y_train None default_epochs default_metric (PyInt 8))
            (run sample_calls docstring_self)) !! "batch_size" = Some (PyInt 8)
  ∧ config (run sample_calls docstring_self) !! "batch_size" = Some (PyInt 16).
Proof.
  destruct (batch_size_is_latest_fit docstring_args docstring_self sample_calls
              x_train y_train None default_epochs default_metric (PyInt 8)
              docstring_init) as (_ & Hnew & Hlast).
  split; [exact Hnew|exact Hlast].
Defined.

Lemma restore_is_not_gated_witness :
  let restored :=
    mk_TCNForecaster (mk_ref_model true {["tcn.ckpt"]})
      (init_data_config docstring_args) (init_config docstring_args) in
  model_built (internal docstring_self) = false
  ∧ restore (PyStr "tcn.ckpt") docstring_self
    = (Returned PyNone, restored, [Call_restore (PyStr "tcn.ckpt")])
  ∧ predict x_train restored
    = (Returned (PyArray x_train), restored, [Call_predict x_train]).
Proof.
  intros restored.
  destruct (restore_is_not_gated docstring_self (PyStr "tcn.ckpt") x_train
              ref_restore_leaves_built) as [Hrestore Hpredict].
  split; [reflexivity|].
  split; [exact Hrestore|].
  exact (Hpredict PyNone restored [Call_restore (PyStr "tcn.ckpt")] Hrestore).
Defined.

Lemma data_config_never_changes_witness :
  data_config (run sample_calls docstring_self) = init_data_config docstring_args
  ∧ data_config (after (perform (Op_restore (PyStr "tcn.ckpt")))
                   (run sample_calls docstring_self))
    = data_config (run sample_calls docstring_self)
  ∧ data_config (run sample_calls docstring_self) !! "past_seq_len" = Some 24
  ∧ data_config (run sample_calls docstring_self) !! "future_seq_len" = Some 5
  ∧ data_config (run sample_calls docstring_self) !! "input_feature_num" = Some 1
  ∧ data_config (run sample_calls docstring_self) !! "output_feature_num" = Some 1.
Proof.
  exact (data_config_never_changes docstring_args docstring_self sample_calls
           (Op_restore (PyStr "tcn.ckpt")) docstring_init).
Defined.

Lemma init_accepts_any_arguments_witness :
  ∃ self : TCNForecaster ref_model,
    __init__ senseless_args = Returned self
    ∧ model_built (internal self) = false
    ∧ data_config self
      = list_to_map [("past_seq_len", -3); ("future_seq_len", 0);
                     ("input_feature_num", -1); ("output_feature_num", -7)]
    ∧ config self
      = list_to_map [("lr", PyFloat (-1)%float); ("loss", PyStr "no such loss");
                     ("num_channels", PyList []); ("kernel_size", PyInt (-4));
                     ("optim", PyNone); ("dropout", PyFloat 1.5%float)]
    ∧ config self !! "batch_size" = None.
Proof.
  exact (init_accepts_any_arguments senseless_args ref_new_model_unbuilt).
Defined.

Lemma fit_assigns_before_checking_witness :
  fit x_short y_train None default_epochs default_metric (PyInt 64) docstring_self
  = (Raised (AssertionError (shape_message "x" x_layout "past_seq_len" 24 23)),
     with_batch_size (PyInt 64) docstring_self, [])
  ∧ config (after (fit x_short y_train None default_epochs default_metric (PyInt 64))
              docstring_self) !! "batch_size" = Some (PyInt 64)
  ∧ after (fit x_short y_train None default_epochs default_metric (PyInt 64))
      docstring_self ≠ docstring_self.
Proof.
  destruct (fit_assigns_before_checking docstring_self x_short y_train None
              default_epochs default_metric (PyInt 64)
              (shape_message "x" x_layout "past_seq_len" 24 23) eq_refl)
    as (Hfit & Hnew & Hchanged).
  split; [exact Hfit|]. split; [exact Hnew|].
  apply Hchanged. discriminate.
Defined.

Lemma check_data_reads_last_two_only_witness :
  _check_data x_rank2 y_rank5 docstring_self = (Returned (), docstring_self, []).
Proof.
  exact (check_data_reads_last_two_only docstring_args docstring_self
           x_rank2 y_rank5 [] [7; 3; 2] docstring_instance eq_refl eq_refl).
Defined.

(** * Further properties of the methods *)

(** ** More on the shape checks *)

Section MoreChecks.
Context {M : Type}.
Implicit Types (self : TCNForecaster M) (x y : ndarray) (a : init_args).

(** x without a second-to-last dimension stops the first check. *)
Lemma check_data_low_rank_x a self x y :
  data_config self = init_data_config a →
  (length (shape x) < 2)%nat →
  _check_data x y self
  = (Raised (IndexError "tuple index out of range"), self, []).
Proof.
  intros Hcfg Hlen.
  destruct (init_data_config_lookup a) as (Hp & _). rewrite <- Hcfg in Hp.
  unfold _check_data.
  erewrite bind_raised; [done|].
  apply (assert_dim_index_error _ _ _ _ _ _ _ Hp).
  by apply tuple_getitem_penultimate_short.
Qed.

(** y without a second-to-last dimension stops the second check, when the
    first one passes. *)
Lemma check_data_low_rank_y a self x y (lx : list Z) (x2 x1 : Z) :
  data_config self = init_data_config a →
  shape x = lx ++ [x2; x1] →
  (length (shape y) < 2)%nat →
  _check_data x y self
  = (if bool_decide (past_seq_len a = x2)
     then Raised (IndexError "tuple index out of range")
     else Raised (AssertionError
            (shape_message "x" x_layout "past_seq_len" (past_seq_len a) x2)),
     self, []).
Proof.
  intros Hcfg Hx Hlen.
  destruct (init_data_config_lookup a) as (Hp & Hf & _).
  rewrite <- Hcfg in Hp, Hf.
  pose proof (assert_dim_eval "past_seq_len" x (-2) _ self _ _ _ Hp
    ltac:(rewrite Hx; apply tuple_getitem_penultimate)
    (format_x_past_seq_len _ _)) as H1.
  unfold _check_data.
  destruct (bool_decide (past_seq_len a = x2)).
  - erewrite bind_pure by exact H1.
    erewrite bind_raised; [done|].
    apply (assert_dim_index_error _ _ _ _ _ _ _ Hf).
    by apply tuple_getitem_penultimate_short.
  - by erewrite bind_raised by exact H1.
Qed.

(** The outcome of one check is a function of the configured entry and of
    the dimension read. *)
Lemma assert_dim_congr key (arr arr' : ndarray) i template self (self' : TCNForecaster M) :
  data_config self !! key = data_config self' !! key →
  tuple_getitem (shape arr) i = tuple_getitem (shape arr') i →
  (assert_dim key arr i template self).1.1
  = (assert_dim key arr' i template self').1.1.
Proof.
  intros Hkey Hdim.
  unfold assert_dim, data_config_getitem, lift, py_assert, raise,
    mbind, Py_bind, mret, Py_ret.
  rewrite Hkey, Hdim. clear Hkey Hdim.
  destruct (data_config self' !! key); [|done].
  destruct (tuple_getitem (shape arr') i); [|done].
  destruct (bool_decide _); [done|].
  by destruct (py_format _ _).
Qed.

Lemma check_data_congr x x' y y' self (self' : TCNForecaster M) :
  data_config self = data_config self' →
  tuple_getitem (shape x) (-2) = tuple_getitem (shape x') (-2) →
  tuple_getitem (shape x) (-1) = tuple_getitem (shape x') (-1) →
  tuple_getitem (shape y) (-2) = tuple_getitem (shape y') (-2) →
  tuple_getitem (shape y) (-1) = tuple_getitem (shape y') (-1) →
  (_check_data x y self).1.1 = (_check_data x' y' self').1.1.
Proof.
  intros Hcfg Hx2 Hx1 Hy2 Hy1.
  unfold _check_data.
  repeat
    match goal with
    | |- ((assert_dim ?k ?arr ?i ?t ≫= ?f) self).1.1
         = ((assert_dim ?k ?arr' ?i ?t ≫= ?f') self').1.1 =>
        let H := fresh "H" in
        let H' := fresh "H" in
        let Heq := fresh "Heq" in
        assert ((assert_dim k arr i t self).1.1
                = (assert_dim k arr' i t self').1.1) as Heq
          by (apply assert_dim_congr; [by rewrite Hcfg|done]);
        destruct (assert_dim_pure k arr i t self) as [[[]|?] H];
        destruct (assert_dim_pure k arr' i t self') as [[[]|?] H'];
        rewrite H, H' in Heq; simpl in Heq; try discriminate;
        [erewrite (bind_pure _ _ self) by exact H;
         erewrite (bind_pure _ _ self') by exact H'
        |erewrite (bind_raised _ _ self) by exact H;
         erewrite (bind_raised _ _ self') by exact H';
         simpl; congruence]
    end.
  apply assert_dim_congr; [by rewrite Hcfg|done].
Qed.

(** X13. [_check_data] never changes the object and never calls the model,
    and on arrays with two dimensions or more its outcome depends on
    nothing but [self.data_config] and the last two dimensions of each
    array: not on the leading dimensions, the contents of the arrays, the
    hyper-parameters or the state of the model. *)
Theorem check_data_depends_on_last_two_dims self (self' : TCNForecaster M)
    x x' y y' (lx lx' ly ly' : list Z) (x2 x1 y2 y1 : Z) :
  data_config self = data_config self' →
  shape x = lx ++ [x2; x1] → shape x' = lx' ++ [x2; x1] →
  shape y = ly ++ [y2; y1] → shape y' = ly' ++ [y2; y1] →
  (_check_data x y self).1.1 = (_check_data x' y' self').1.1
  ∧ (_check_data x y self).1.2 = self
  ∧ (_check_data x y self).2 = [].
Proof.
  intros Hcfg Hx Hx' Hy Hy'.
  split.
  - apply check_data_congr; [done|..];
      rewrite ?Hx, ?Hx', ?Hy, ?Hy';
      by rewrite ?tuple_getitem_penultimate, ?tuple_getitem_last.
  - destruct (check_data_pure x y self) as [r Hr]. by rewrite Hr.
Qed.

(** X14. When the entry ["past_seq_len"] is missing from
    [self.data_config], [_check_data] raises [KeyError] for it before it
    reads any shape, whatever the arrays. *)
Theorem check_data_missing_key self x y :
  data_config self !! "past_seq_len" = None →
  _check_data x y self = (Raised (KeyError "past_seq_len"), self, []).
Proof.
  intros Hkey. unfold _check_data.
  erewrite bind_raised; [done|].
  unfold assert_dim, data_config_getitem, mbind, Py_bind.
  by rewrite Hkey.
Qed.

End MoreChecks.

(** ** More on the methods *)

Section MoreMethods.
Context {M : Type} `{!TCNPytorch M}.
Implicit Types (self : TCNForecaster M) (x y : ndarray) (a : init_args).

(** [fit] when the checks fail, and when they pass on an object a client
    can hold. *)
Lemma fit_check_failed self x y v (epochs metric b : pyval) (e : exn) :
  (_check_data x y (with_batch_size b self)).1.1 = Raised e →
  fit x y v epochs metric b self = (Raised e, with_batch_size b self, []).
Proof. intros Hcheck. rewrite fit_unfold. by rewrite Hcheck. Qed.

Lemma fit_check_passed a self x y v (epochs metric b : pyval) :
  instance_of a self →
  (_check_data x y (with_batch_size b self)).1.1 = Returned () →
  let kwargs := <["batch_size" := b]> (init_config a) in
  let c := Call_fit_eval (x, y) (default (x, y) v) epochs metric kwargs in
  fit x y v epochs metric b self
  = ((invoke c (internal self)).1,
     mk_TCNForecaster (invoke c (internal self)).2 (data_config self) kwargs,
     [c]).
Proof.
  intros Hinst Hcheck kwargs c.
  rewrite fit_unfold, Hcheck.
  erewrite bind_pure
    by exact (config_kwargs_instance a b (with_batch_size b self)
                (instance_config_with_batch_size a self b Hinst)).
  unfold internal_call, with_batch_size. cbn [internal data_config config].
  rewrite (instance_config_with_batch_size a self b Hinst).
  fold kwargs. fold c.
  by destruct (invoke c (internal self)) as [r m'].
Qed.

Lemma last_batch_size_acc (ops : list op) (b0 : pyval) :
  last_batch_size ops (Some b0)
  = Some (default b0 (last_batch_size ops None)).
Proof.
  revert b0. induction ops as [|o ops IH]; intros b0; simpl; [done|].
  destruct o; try apply IH.
  rewrite !IH. by destruct (last_batch_size ops None).
Qed.

(** X1. The two onnx methods are gated like [predict] and [evaluate], and
    with their messages: while the model's built flag is false they raise
    the [RuntimeError] that names predict, respectively evaluate, change
    nothing and make no call on the model. *)
Theorem unbuilt_onnx_methods_raise self x y (metrics dirname multioutput : pyval) :
  model_built (internal self) = false →
  predict_with_onnx x dirname self
  = (Raised (RuntimeError "You must call fit or restore first before calling predict!"),
     self, [])
  ∧ evaluate_with_onnx x y metrics dirname multioutput self
    = (Raised (RuntimeError "You must call fit or restore first before calling evaluate!"),
       self, []).
Proof.
  intros Hbuilt.
  unfold predict_with_onnx, evaluate_with_onnx, internal_model_built, raise,
    mbind, Py_bind.
  by rewrite Hbuilt.
Qed.

(** X2. Once the model's built flag is true, [predict],
    [predict_with_onnx], [evaluate] and [evaluate_with_onnx] check nothing
    else, the shapes of x and y no more than the rest: each makes the one
    call of its name on the model with the arguments it was given, and what
    the model returns or raises is what the method returns or raises. *)
Theorem built_methods_delegate self x y (metrics dirname multioutput : pyval) :
  model_built (internal self) = true →
  let handed (c : call) :=
    ((invoke c (internal self)).1,
     mk_TCNForecaster (invoke c (internal self)).2 (data_config self) (config self),
     [c]) in
  predict x self = handed (Call_predict x)
  ∧ predict_with_onnx x dirname self = handed (Call_predict_with_onnx x dirname)
  ∧ evaluate x y metrics multioutput self
    = handed (Call_evaluate x y metrics multioutput)
  ∧ evaluate_with_onnx x y metrics dirname multioutput self
    = handed (Call_evaluate_with_onnx x y metrics dirname multioutput).
Proof.
  intros Hbuilt handed. unfold handed.
  unfold predict, predict_with_onnx, evaluate, evaluate_with_onnx,
    internal_model_built, internal_call, mbind, Py_bind.
  rewrite Hbuilt. cbn [negb app].
  repeat split;
    match goal with
    | |- context [invoke ?c ?m] => by destruct (invoke c m) as [r m']
    end.
Qed.

(** X3. On a built model [save] makes the one call [save] on the model
    and returns [None] whatever that call returned; an exception of the
    model comes out of [save] as it is. *)
Theorem built_save_returns_none self (f : pyval) :
  model_built (internal self) = true →
  let r := invoke (Call_save f) (internal self) in
  save f self
  = (match r.1 with
     | Returned _ => Returned PyNone
     | Raised e => Raised e
     end,
     mk_TCNForecaster r.2 (data_config self) (config self),
     [Call_save f]).
Proof.
  intros Hbuilt r.
  unfold save, internal_model_built, internal_call, mbind, Py_bind, mret, Py_ret.
  rewrite Hbuilt. cbn [negb app]. fold r.
  by destruct r as [[w|e] m'].
Qed.

(** Closes the case of a method that has reached its call on the model. *)
Ltac one_call :=
  right; eexists;
  match goal with
  | |- context [invoke ?c ?m] =>
      let Hc := fresh "Hc" in
      destruct (invoke c m) as [[?|?] ?] eqn:Hc; simpl;
      (split; [done|]); rewrite Hc; simpl; (split; [done|]);
      intros ?; split; congruence
  end.

(** X4. A public method calls the model at most once.  With no call, the
    method has raised and the model object is untouched; with a call, the
    model object is the one that call leaves, and the method raises
    exactly when the call raised, with the same exception. *)
Theorem perform_calls_model_at_most_once (o : op) self :
  ((perform o self).2 = []
   ∧ internal (after (perform o) self) = internal self
   ∧ ∃ e, (perform o self).1.1 = Raised e)
  ∨ ∃ c, (perform o self).2 = [c]
         ∧ internal (after (perform o) self) = (invoke c (internal self)).2
         ∧ ∀ e, (perform o self).1.1 = Raised e
                ↔ (invoke c (internal self)).1 = Raised e.
Proof.
  destruct o; simpl.
  - unfold after. rewrite fit_unfold.
    destruct (_check_data _ _ _).1.1 as [[]|e]; [|left; eauto].
    unfold config_kwargs, internal_call, mbind, Py_bind.
    destruct (existsb _ _); [left; eauto|].
    cbn [config data_config internal with_batch_size].
    one_call.
  - unfold after, predict, internal_model_built, internal_call, raise,
      mbind, Py_bind.
    destruct (model_built (internal self)); simpl; [|left; eauto].
    one_call.
  - unfold after, predict_with_onnx, internal_model_built, internal_call, raise,
      mbind, Py_bind.
    destruct (model_built (internal self)); simpl; [|left; eauto].
    one_call.
  - unfold after, evaluate, internal_model_built, internal_call, raise,
      mbind, Py_bind.
    destruct (model_built (internal self)); simpl; [|left; eauto].
    one_call.
  - unfold after, evaluate_with_onnx, internal_model_built, internal_call, raise,
      mbind, Py_bind.
    destruct (model_built (internal self)); simpl; [|left; eauto].
    one_call.
  - unfold after, save, internal_model_built, internal_call, raise,
      mbind, Py_bind, mret, Py_ret.
    destruct (model_built (internal self)); simpl; [|left; eauto].
    one_call.
  - unfold after, restore, internal_call, mbind, Py_bind, mret, Py_ret.
    one_call.
Qed.

(** X5. Validation data given to [fit] goes to [fit_eval] as it is and is
    never checked: on arrays x and y of the configured shape, whatever the
    pair [validation_data] holds, [fit] makes its one call with that pair
    as [validation_data]. *)
Theorem fit_passes_validation_data_unchecked a self x y (vd : ndarray * ndarray)
    (epochs metric b : pyval) (lx ly : list Z) :
  instance_of a self →
  shape x = lx ++ [past_seq_len a; input_feature_num a] →
  shape y = ly ++ [future_seq_len a; output_feature_num a] →
  let kwargs := <["batch_size" := b]> (init_config a) in
  let c := Call_fit_eval (x, y) vd epochs metric kwargs in
  fit x y (Some vd) epochs metric b self
  = ((invoke c (internal self)).1,
     mk_TCNForecaster (invoke c (internal self)).2 (data_config self) kwargs,
     [c]).
Proof.
  intros Hinst Hx Hy.
  apply (fit_check_passed a self x y (Some vd) epochs metric b Hinst).
  rewrite (check_data_rank2 a (with_batch_size b self) x y lx ly _ _ _ _
             (instance_data_config _ _ Hinst) Hx Hy).
  by rewrite !bool_decide_eq_true_2.
Qed.

(** X6. On arrays with two dimensions or more, [fit] reaches the model
    exactly when the four dimensions are the configured ones, those of y
    as much as those of x: then it makes its one call, and otherwise it
    raises an [AssertionError] and makes none. *)
Theorem fit_calls_model_iff_shapes_match a self x y v (epochs metric b : pyval)
    (lx ly : list Z) (x2 x1 y2 y1 : Z) :
  instance_of a self →
  shape x = lx ++ [x2; x1] →
  shape y = ly ++ [y2; y1] →
  let matching :=
    x2 = past_seq_len a ∧ y2 = future_seq_len a
    ∧ x1 = input_feature_num a ∧ y1 = output_feature_num a in
  (matching →
   (fit x y v epochs metric b self).2
   = [Call_fit_eval (x, y) (default (x, y) v) epochs metric
        (<["batch_size" := b]> (init_config a))])
  ∧ (¬ matching →
     ∃ msg, fit x y v epochs metric b self
            = (Raised (AssertionError msg), with_batch_size b self, [])).
Proof.
  intros Hinst Hx Hy matching.
  pose proof (check_data_rank2 a (with_batch_size b self) x y lx ly x2 x1 y2 y1
                (instance_data_config _ _ Hinst) Hx Hy) as Hcheck.
  split.
  - intros (-> & -> & -> & ->).
    rewrite !bool_decide_eq_true_2 in Hcheck by done.
    rewrite (fit_check_passed a self x y v epochs metric b Hinst); [done|].
    by rewrite Hcheck.
  - intros Hno.
    repeat case_bool_decide;
      try (eexists; apply fit_check_failed; by rewrite Hcheck).
    destruct Hno. unfold matching. by repeat split.
Qed.

(** X7. An x with fewer than two dimensions makes [fit] raise
    [IndexError], whatever y is: the first check reads a dimension x does
    not have.  No call is made on the model, and the batch size is
    assigned all the same. *)
Theorem fit_low_rank_x_index_error a self x y v (epochs metric b : pyval) :
  instance_of a self →
  (length (shape x) < 2)%nat →
  fit x y v epochs metric b self
  = (Raised (IndexError "tuple index out of range"), with_batch_size b self, []).
Proof.
  intros Hinst Hlen. apply fit_check_failed.
  by rewrite (check_data_low_rank_x a (with_batch_size b self) x y
                (instance_data_config _ _ Hinst) Hlen).
Qed.

(** X8. A y with fewer than two dimensions, next to an x with two or
    more: [fit] raises the past_seq_len [AssertionError] when x's
    second-to-last dimension is wrong, and [IndexError] when it is right,
    whatever x's last dimension is.  No call is made on the model. *)
Theorem fit_low_rank_y a self x y v (epochs metric b : pyval)
    (lx : list Z) (x2 x1 : Z) :
  instance_of a self →
  shape x = lx ++ [x2; x1] →
  (length (shape y) < 2)%nat →
  fit x y v epochs metric b self
  = (if bool_decide (past_seq_len a = x2)
     then Raised (IndexError "tuple index out of range")
     else Raised (AssertionError
            (shape_message "x" x_layout "past_seq_len" (past_seq_len a) x2)),
     with_batch_size b self, []).
Proof.
  intros Hinst Hx Hlen.
  pose proof (check_data_low_rank_y a (with_batch_size b self) x y lx x2 x1
                (instance_data_config _ _ Hinst) Hx Hlen) as Hcheck.
  case_bool_decide; apply fit_check_failed; by rewrite Hcheck.
Qed.

(** X9. After any sequence of public calls the configuration dictionary
    is the one the client started from with, at most, ["batch_size"]
    replaced by that of the last [fit]: no other entry is added, removed
    or changed by any method. *)
Theorem config_after_calls (ops : list op) self :
  config (run ops self)
  = match last_batch_size ops None with
    | Some b => <["batch_size" := b]> (config self)
    | None => config self
    end.
Proof.
  revert self. induction ops as [|o ops IH]; intros self; simpl; [done|].
  rewrite IH, perform_config.
  destruct o; try done.
  rewrite last_batch_size_acc.
  destruct (last_batch_size ops None); simpl; [|done].
  by rewrite insert_insert_eq.
Qed.

(** X10. The hyper-parameters of an object a client can hold are those
    given to [__init__], under the keys lr, loss, num_channels,
    kernel_size, optim and dropout, and the dictionary has no key besides
    these six and ["batch_size"]. *)
Theorem hyper_parameters_never_change a self :
  instance_of a self →
  config self !! "lr" = Some (lr a)
  ∧ config self !! "loss" = Some (loss a)
  ∧ config self !! "num_channels" = Some (num_channels a)
  ∧ config self !! "kernel_size" = Some (kernel_size a)
  ∧ config self !! "optim" = Some (optimizer a)
  ∧ config self !! "dropout" = Some (dropout a)
  ∧ dom (config self)
    ⊆ {["lr"; "loss"; "num_channels"; "kernel_size"; "optim"; "dropout";
        "batch_size"]}.
Proof.
  intros Hinst.
  repeat (split; [by rewrite (instance_config a self _ Hinst)|]).
  intros k [w Hk]%elem_of_dom.
  destruct (decide (k = "batch_size")) as [->|Hne]; [set_solver|].
  rewrite (instance_config a self k Hinst Hne) in Hk.
  unfold init_config in Hk.
  repeat match type of Hk with
         | <[?k' := _]> _ !! _ = _ =>
             destruct (decide (k = k')) as [->|?];
             [set_solver|rewrite lookup_insert_ne in Hk by done]
         end.
  by rewrite lookup_empty in Hk.
Qed.

(** X11. On an object a client can hold, [fit] ends in one of two ways.
    Either it raises before any call on the model, and then an
    [AssertionError] of a shape check or the [IndexError] of a missing
    dimension, never a [KeyError] or a [TypeError]; or it makes its one
    call [fit_eval] and ends as that call ends. *)
Theorem fit_outcomes a self x y v (epochs metric b : pyval) :
  instance_of a self →
  (∃ e, fit x y v epochs metric b self = (Raised e, with_batch_size b self, [])
        ∧ (e = IndexError "tuple index out of range" ∨ ∃ msg, e = AssertionError msg))
  ∨ (let kwargs := <["batch_size" := b]> (init_config a) in
     let c := Call_fit_eval (x, y) (default (x, y) v) epochs metric kwargs in
     fit x y v epochs metric b self
     = ((invoke c (internal self)).1,
        mk_TCNForecaster (invoke c (internal self)).2 (data_config self) kwargs,
        [c])).
Proof.
  intros Hinst.
  pose proof (instance_data_config _ _ Hinst : data_config (with_batch_size b self) = _)
    as Hcfg.
  destruct (decide (2 ≤ length (shape x))%nat) as [Hrx|Hrx].
  - destruct (rank2_split _ Hrx) as (lx & x2 & x1 & Hx).
    destruct (decide (2 ≤ length (shape y))%nat) as [Hry|Hry].
    + destruct (rank2_split _ Hry) as (ly & y2 & y1 & Hy).
      pose proof (check_data_rank2 a _ x y lx ly x2 x1 y2 y1 Hcfg Hx Hy) as Hcheck.
      repeat case_bool_decide;
        try (left; eexists; split;
             [apply fit_check_failed; by rewrite Hcheck|eauto]).
      right. apply (fit_check_passed a self x y v epochs metric b Hinst).
      by rewrite Hcheck.
    + pose proof (check_data_low_rank_y a _ x y lx x2 x1 Hcfg Hx
                    ltac:(lia)) as Hcheck.
      left. case_bool_decide; eexists;
        (split; [apply fit_check_failed; by rewrite Hcheck|eauto]).
  - left. eexists. split; [|by left].
    apply fit_check_failed.
    by rewrite (check_data_low_rank_x a _ x y Hcfg ltac:(lia)).
Qed.

(** X12. A forecaster built with a negative length or feature number can
    never be fitted: whatever arrays it is given, their dimensions being
    natural numbers, [fit] raises before any call on the model. *)
Theorem negative_config_never_fits a self x y v (epochs metric b : pyval) :
  instance_of a self →
  past_seq_len a < 0 ∨ future_seq_len a < 0
  ∨ input_feature_num a < 0 ∨ output_feature_num a < 0 →
  Forall (λ d, 0 ≤ d) (shape x) →
  Forall (λ d, 0 ≤ d) (shape y) →
  ∃ e, fit x y v epochs metric b self = (Raised e, with_batch_size b self, []).
Proof.
  intros Hinst Hneg Hpx Hpy.
  pose proof (instance_data_config _ _ Hinst : data_config (with_batch_size b self) = _)
    as Hcfg.
  destruct (decide (2 ≤ length (shape x))%nat) as [Hrx|Hrx].
  - destruct (rank2_split _ Hrx) as (lx & x2 & x1 & Hx).
    destruct (decide (2 ≤ length (shape y))%nat) as [Hry|Hry].
    + destruct (rank2_split _ Hry) as (ly & y2 & y1 & Hy).
      pose proof (check_data_rank2 a _ x y lx ly x2 x1 y2 y1 Hcfg Hx Hy) as Hcheck.
      rewrite Hx in Hpx. rewrite Hy in Hpy.
      apply Forall_app in Hpx as [_ Hpx]. apply Forall_app in Hpy as [_ Hpy].
      apply Forall_cons in Hpx as [? [? _]%Forall_cons].
      apply Forall_cons in Hpy as [? [? _]%Forall_cons].
      repeat case_bool_decide;
        try (eexists; apply fit_check_failed; by rewrite Hcheck).
      lia.
    + pose proof (check_data_low_rank_y a _ x y lx x2 x1 Hcfg Hx
                    ltac:(lia)) as Hcheck.
      case_bool_decide; eexists; apply fit_check_failed; by rewrite Hcheck.
  - eexists. apply fit_check_failed.
    by rewrite (check_data_low_rank_x a _ x y Hcfg ltac:(lia)).
Qed.

End MoreMethods.

(** ** The further properties on the docstring's forecaster *)

Lemma senseless_instance : instance_of senseless_args senseless_self.
Proof. by exists senseless_self, []. Qed.

Lemma sample_calls_instance :
  instance_of docstring_args (run sample_calls docstring_self).
Proof. by exists docstring_self, sample_calls. Qed.

Lemma unbuilt_onnx_methods_raise_witness :
  predict_with_onnx x_train PyNone docstring_self
  = (Raised (RuntimeError "You must call fit or restore first before calling predict!"),
     docstring_self, [])
  ∧ evaluate_with_onnx x_train y_train default_metrics PyNone default_multioutput
      docstring_self
    = (Raised (RuntimeError "You must call fit or restore first before calling evaluate!"),
       docstring_self, []).
Proof.
  exact (unbuilt_onnx_methods_raise docstring_self x_train y_train
           default_metrics PyNone default_multioutput eq_refl).
Defined.

Lemma built_methods_delegate_witness :
  predict x_wide built_self
  = (Returned (PyArray x_wide), built_self, [Call_predict x_wide])
  ∧ predict_with_onnx x_wide (PyStr "onnx") built_self
    = (Returned (PyArray x_wide), built_self,
       [Call_predict_with_onnx x_wide (PyStr "onnx")])
  ∧ evaluate x_wide y_flat default_metrics default_multioutput built_self
    = (Returned default_metrics, built_self,
       [Call_evaluate x_wide y_flat default_metrics default_multioutput])
  ∧ evaluate_with_onnx x_wide y_flat default_metrics (PyStr "onnx")
      default_multioutput built_self
    = (Returned default_metrics, built_self,
       [Call_evaluate_with_onnx x_wide y_flat default_metrics (PyStr "onnx")
          default_multioutput]).
Proof.
  exact (built_methods_delegate built_self x_wide y_flat default_metrics
           (PyStr "onnx") default_multioutput eq_refl).
Defined.

Lemma built_save_returns_none_witness :
  save (PyStr "other.ckpt") built_self
  = (Returned PyNone,
     mk_TCNForecaster (mk_ref_model true ({["other.ckpt"]} ∪ {["tcn.ckpt"]}))
       (init_data_config docstring_args) (init_config docstring_args),
     [Call_save (PyStr "other.ckpt")])
  ∧ save (PyInt 7) built_self
    = (Raised (ModelError "path is not a string"), built_self,
       [Call_save (PyInt 7)]).
Proof.
  split.
  - exact (built_save_returns_none built_self (PyStr "other.ckpt") eq_refl).
  - exact (built_save_returns_none built_self (PyInt 7) eq_refl).
Defined.

Lemma fit_passes_validation_data_unchecked_witness :
  let kwargs := <["batch_size" := PyInt 32]> (init_config docstring_args) in
  fit x_train y_train (Some odd_validation_data) (PyInt 1) (PyStr "mse") (PyInt 32)
    docstring_self
  = (Returned (PyList [PyStr "mse"]),
     mk_TCNForecaster (mk_ref_model true {["tcn.ckpt"]})
       (init_data_config docstring_args) kwargs,
     [Call_fit_eval (x_train, y_train) (y_flat, x_wide) (PyInt 1) (PyStr "mse")
        kwargs]).
Proof.
  exact (fit_passes_validation_data_unchecked docstring_args docstring_self
           x_train y_train odd_validation_data (PyInt 1) (PyStr "mse") (PyInt 32)
           [10] [10] docstring_instance eq_refl eq_refl).
Defined.

Lemma fit_calls_model_iff_shapes_match_witness :
  (fit x_batch y_batch None default_epochs default_metric default_batch_size
     docstring_self).2
  = [Call_fit_eval (x_batch, y_batch) (x_batch, y_batch) default_epochs
       default_metric (<["batch_size" := default_batch_size]> (init_config docstring_args))]
  ∧ ∃ msg,
      fit x_train y_short None default_epochs default_metric default_batch_size
        docstring_self
      = (Raised (AssertionError msg),
         with_batch_size default_batch_size docstring_self, []).
Proof.
  split.
  - pose proof (fit_calls_model_iff_shapes_match docstring_args docstring_self
                  x_batch y_batch None default_epochs default_metric
                  default_batch_size [3; 128] [3; 128] 24 1 5 1
                  docstring_instance eq_refl eq_refl) as [Hcall _].
    apply Hcall. by repeat split.
  - pose proof (fit_calls_model_iff_shapes_match docstring_args docstring_self
                  x_train y_short None default_epochs default_metric
                  default_batch_size [10] [10] 24 1 4 1
                  docstring_instance eq_refl eq_refl) as [_ Hraise].
    apply Hraise. intros (_ & Hy & _). vm_compute in Hy. discriminate.
Defined.

Lemma fit_low_rank_x_index_error_witness :
  fit x_flat y_train None default_epochs default_metric default_batch_size
    docstring_self
  = (Raised (IndexError "tuple index out of range"),
     with_batch_size default_batch_size docstring_self, []).
Proof.
  assert (length (shape x_flat) < 2)%nat as Hlen by (simpl; lia).
  exact (fit_low_rank_x_index_error docstring_args docstring_self x_flat y_train
           None default_epochs default_metric default_batch_size
           docstring_instance Hlen).
Defined.

Lemma fit_low_rank_y_witness :
  fit x_wide y_flat None default_epochs default_metric default_batch_size
    docstring_self
  = (Raised (IndexError "tuple index out of range"),
     with_batch_size default_batch_size docstring_self, [])
  ∧ fit x_short y_flat None default_epochs default_metric default_batch_size
      docstring_self
    = (Raised (AssertionError (shape_message "x" x_layout "past_seq_len" 24 23)),
       with_batch_size default_batch_size docstring_self, []).
Proof.
  assert (length (shape y_flat) < 2)%nat as Hlen by (simpl; lia).
  split.
  - exact (fit_low_rank_y docstring_args docstring_self x_wide y_flat None
             default_epochs default_metric default_batch_size [10] 24 2
             docstring_instance eq_refl Hlen).
  - exact (fit_low_rank_y docstring_args docstring_self x_short y_flat None
             default_epochs default_metric default_batch_size [10] 23 1
             docstring_instance eq_refl Hlen).
Defined.

Lemma hyper_parameters_never_change_witness :
  let self := run sample_calls docstring_self in
  config self !! "lr" = Some (lr docstring_args)
  ∧ config self !! "loss" = Some (PyStr "mae")
  ∧ config self !! "num_channels" = Some (PyList [PyInt 16; PyInt 16])
  ∧ config self !! "kernel_size" = Some (PyInt 4)
  ∧ config self !! "optim" = Some (PyStr "Adam")
  ∧ config self !! "dropout" = Some default_dropout
  ∧ dom (config self)
    ⊆ {["lr"; "loss"; "num_channels"; "kernel_size"; "optim"; "dropout";
        "batch_size"]}.
Proof.
  exact (hyper_parameters_never_change docstring_args
           (run sample_calls docstring_self) sample_calls_instance).
Defined.

Lemma fit_outcomes_witness :
  (∃ e, fit x_train y_short None default_epochs default_metric default_batch_size
          docstring_self
        = (Raised e, with_batch_size default_batch_size docstring_self, [])
        ∧ (e = IndexError "tuple index out of range" ∨ ∃ msg, e = AssertionError msg))
  ∨ (let kwargs := <["batch_size" := default_batch_size]> (init_config docstring_args) in
     let c := Call_fit_eval (x_train, y_short) (x_train, y_short) default_epochs
                default_metric kwargs in
     fit x_train y_short None default_epochs default_metric default_batch_size
       docstring_self
     = ((invoke c (internal docstring_self)).1,
        mk_TCNForecaster (invoke c (internal docstring_self)).2
          (data_config docstring_self) kwargs,
        [c])).
Proof.
  exact (fit_outcomes docstring_args docstring_self x_train y_short None
           default_epochs default_metric default_batch_size docstring_instance).
Defined.

Lemma negative_config_never_fits_witness :
  ∃ e, fit x_train y_train None default_epochs default_metric default_batch_size
         senseless_self
       = (Raised e, with_batch_size default_batch_size senseless_self, []).
Proof.
  assert (past_seq_len senseless_args < 0 ∨ future_seq_len senseless_args < 0
          ∨ input_feature_num senseless_args < 0
          ∨ output_feature_num senseless_args < 0) as Hneg
    by (left; vm_compute; reflexivity).
  assert (Forall (λ d, 0 ≤ d) (shape x_train)) as Hx
    by (repeat first [apply Forall_nil_2 | apply Forall_cons_2; [lia|]]).
  assert (Forall (λ d, 0 ≤ d) (shape y_train)) as Hy
    by (repeat first [apply Forall_nil_2 | apply Forall_cons_2; [lia|]]).
  exact (negative_config_never_fits senseless_args senseless_self x_train y_train
           None default_epochs default_metric default_batch_size
           senseless_instance Hneg Hx Hy).
Defined.

Lemma check_data_depends_on_last_two_dims_witness :
  (_check_data x_train y_train docstring_self).1.1
  = (_check_data x_batch y_batch built_self).1.1
  ∧ (_check_data x_train y_train docstring_self).1.2 = docstring_self
  ∧ (_check_data x_train y_train docstring_self).2 = [].
Proof.
  exact (check_data_depends_on_last_two_dims docstring_self built_self
           x_train x_batch y_train y_batch [10] [3; 128] [10] [3; 128] 24 1 5 1
           eq_refl eq_refl eq_refl eq_refl eq_refl).
Defined.

Lemma check_data_missing_key_witness :
  _check_data y_flat x_wide keyless_self
  = (Raised (KeyError "past_seq_len"), keyless_self, []).
Proof.
  exact (check_data_missing_key keyless_self y_flat x_wide eq_refl).
Defined.
